(** * rest_live.consumers: subscription consumer of django-rest-live

    Shallow embedding of [src/rest_live/consumers.py] and the properties
    of its group addressing, subscription handling and notification
    dispatch. *)

From Stdlib Require Import ZArith String Ascii DecimalString DecimalZ.
From stdpp Require Import base option list gmap strings.

Local Open Scope string_scope.
Local Open Scope Z_scope.

(** ** Python values

    The values that travel in client messages and change events are
    decoded JSON.  The embedding covers the scalar cases [None], [bool],
    [int] and [str]; floats and nested containers are left out. *)

Inductive pyval : Type :=
  | PNone
  | PBool (b : bool)
  | PInt (n : Z)
  | PStr (s : string).

#[global] Instance pyval_eq_dec : EqDecision pyval.
Proof. solve_decision. Defined.

(** [x is None] *)
Definition is_None (v : pyval) : bool :=
  match v with PNone => true | _ => false end.

(** Truth value of an object, as tested by [if] and [not]. *)
Definition truthy (v : pyval) : bool :=
  match v with
  | PNone => false
  | PBool b => b
  | PInt n => negb (n =? 0)
  | PStr s => negb (String.eqb s "")
  end.

(** [str(n)] for an integer: decimal digits, a leading minus sign for
    negative numbers. *)
Definition str_of_int (n : Z) : string :=
  NilZero.string_of_int (Z.to_int n).

(** Text substituted for [{v}] in an f-string, i.e. [format(v, "")]. *)
Definition py_str (v : pyval) : string :=
  match v with
  | PNone => "None"
  | PBool true => "True"
  | PBool false => "False"
  | PInt n => str_of_int n
  | PStr s => s
  end.

(** ** Group addressing *)

(** [get_group_name(model_label, value, key_prop)]: note the parameter
    order, the value comes second and is rendered last. *)
Definition get_group_name (model_label value key_prop : pyval) : string :=
  "RESOURCE-" +:+ py_str model_label +:+ "-" +:+ py_str key_prop
              +:+ "-" +:+ py_str value.

(** ** Exceptions, effects and the consumer monad *)

Inductive exn : Type :=
  | KeyError
  | ValueError
  | LookupError
  | DoesNotExist
  | MultipleObjectsReturned
  | OtherError (name : string).

#[global] Instance exn_eq_dec : EqDecision exn.
Proof. solve_decision. Defined.

(** The two built-in exceptions raised by the collaborators' own checks:
    by the channel layer for a group name it refuses, and by a list
    subscript for an index of the wrong type, respectively out of range. *)
Definition TypeError : exn := OtherError "TypeError".
Definition IndexError : exn := OtherError "IndexError".

(** [except KeyError] *)
Definition is_KeyError (e : exn) : bool :=
  match e with KeyError => true | _ => false end.

(** What a handler does to the outside world, in program order:
    diagnostics go to [print], payloads to the client through
    [send_json], membership changes to the channel layer, and record
    fetches to the record store. *)
Inductive effect : Type :=
  | Print (line : string)
  | SendJson (content : gmap string pyval)
  | GroupAdd (group channel : string)
  | GroupDiscard (group channel : string)
  | ObjectsGet (model_label : pyval) (instance_filter : list (string * pyval)).

Definition is_fabric_call (e : effect) : bool :=
  match e with GroupAdd _ _ | GroupDiscard _ _ => true | _ => false end.

Definition is_send (e : effect) : bool :=
  match e with SendJson _ => true | _ => false end.

Definition is_print (e : effect) : bool :=
  match e with Print _ => true | _ => false end.

Definition is_fetch (e : effect) : bool :=
  match e with ObjectsGet _ _ => true | _ => false end.

(** Modelled from the spec: the Broadcast Fabric is the channel layer of
    the [channels] package, which is not part of this repository.  It
    "maps a group identifier to the set of member connections", so a
    membership is a (group, channel) pair in a set: adding a member twice
    keeps one membership, discarding an absent member changes nothing. *)
Abbreviation fabric := (gset (string * string)).

Definition fabric_step (f : fabric) (e : effect) : fabric :=
  match e with
  | GroupAdd g ch => {[ (g, ch) ]} ∪ f
  | GroupDiscard g ch => f ∖ {[ (g, ch) ]}
  | _ => f
  end.

Definition run_fabric (t : list effect) (f : fabric) : fabric :=
  foldl fabric_step f t.

(** [l.remove(x)]: drops the first occurrence, [None] stands for the
    [ValueError] raised when there is none. *)
Fixpoint list_remove (x : string) (l : list string) : option (list string) :=
  match l with
  | [] => None
  | y :: l' =>
      if decide (x = y) then Some l'
      else cons y <$> list_remove x l'
  end.

(** [x in l] *)
Definition list_contains (x : string) (l : list string) : bool :=
  bool_decide (x ∈ l).

(** [d.get(k, default)] *)
Definition dict_get (d : gmap string pyval) (k : string) (default : pyval) : pyval :=
  match d !! k with Some v => v | None => default end.

(** The key under which a Python object is found in a dict whose keys
    are strings (only an equal string), and the integer an object stands
    for as a list index (an integer itself; [True] and [False] are the
    indices [1] and [0]; nothing else is an index). *)
Definition str_key (k : pyval) : option string :=
  match k with PStr s => Some s | _ => None end.

Definition int_key (k : pyval) : option Z :=
  match k with
  | PInt n => Some n
  | PBool b => Some (if b then 1 else 0)
  | _ => None
  end.

(** [d[k]] *)
Definition getitem {K V} `{Countable K} (key_of : pyval -> option K)
    (d : gmap K V) (k : pyval) : exn + V :=
  match key_of k ≫= (d !!.) with
  | Some v => inr v
  | None => inl KeyError
  end.

(** [l[k]] on a list: a negative index counts from the end, an index
    outside [-len(l) .. len(l) - 1] raises [IndexError], and an object
    that is not an integer raises [TypeError]. *)
Definition list_getitem {V} (l : list V) (k : pyval) : exn + V :=
  match int_key k with
  | None => inl TypeError
  | Some i =>
      let n := Z.of_nat (length l) in
      let j := if i <? 0 then n + i else i in
      if (0 <=? j) && (j <? n) then
        match l !! Z.to_nat j with
        | Some v => inr v
        | None => inl IndexError
        end
      else inl IndexError
  end.

Section Consumer.

Context {User Instance Model Serializer : Type}.

(** [PermissionLambda]: called as [check(user, instance)]; it may raise. *)
Definition PermissionLambda : Type := User -> Instance -> exn + pyval.

(** A registered listener, unpacked as [_, check]; [None] means that no
    check is required. *)
Definition ListenerEntry : Type := (Serializer * option PermissionLambda)%type.

(** Modelled from the spec: [__model_to_listeners] is declared in
    [rest_live/__init__.py], which is not among the sources.  It is the
    Registry, a "table mapping (entity type, property) → ordered list"
    of entries, the rank being "used as array index": two nested
    mappings, keyed by model label and group key, and under them the
    list of entries, subscripted by rank. *)
Definition registry : Type := gmap string (gmap string (list ListenerEntry)).

(** Record Store collaborator: [apps.get_model] and [model.objects.get]. *)
Record record_store : Type := {
  get_model : pyval -> exn + Model;
  objects_get : Model -> list (string * pyval) -> exn + Instance
}.

(** The attributes of [self] the handlers use.  The channel layer is
    seen through the group names it accepts: its [group_add] and
    [group_discard] check the name first and raise [TypeError] for one
    they refuse. *)
Record consumer : Type := {
  user : User;
  groups : list string;
  channel_name : string;
  channel_layer : string → bool
}.

Definition set_groups (c : consumer) (gs : list string) : consumer :=
  {| user := user c; groups := gs; channel_name := channel_name c;
     channel_layer := channel_layer c |}.

(** A handler run: the effects emitted, the consumer afterwards, and the
    value returned or the exception raised. *)
Definition M (A : Type) : Type := consumer -> list effect * consumer * (exn + A).

#[global] Instance M_ret : MRet M := λ A x c, ([], c, inr x).

#[global] Instance M_bind : MBind M := λ A B k m c,
  match m c with
  | (t, c', inr x) => let '(t', c'', r) := k x c' in ((t ++ t')%list, c'', r)
  | (t, c', inl e) => (t, c', inl e)
  end.

Definition raise {A} (e : exn) : M A := λ c, ([], c, inl e).

Definition lift {A} (r : exn + A) : M A := λ c, ([], c, r).

Definition emit (e : effect) : M unit := λ c, ([e], c, inr tt).

Definition self : M consumer := λ c, ([], c, inr c).

Definition put_groups (gs : list string) : M unit :=
  λ c, ([], set_groups c gs, inr tt).

(** [try: body / except <handles>: handler] *)
Definition try_except {A} (body : M A) (handles : exn -> bool) (handler : M A) : M A :=
  λ c,
  match body c with
  | (t, c', inl e) =>
      if handles e then let '(t', c'', r) := handler c' in ((t ++ t')%list, c'', r)
      else (t, c', inl e)
  | o => o
  end.

Definition trace_of {A} (o : list effect * consumer * (exn + A)) : list effect := o.1.1.
Definition final_of {A} (o : list effect * consumer * (exn + A)) : consumer := o.1.2.
Definition result_of {A} (o : list effect * consumer * (exn + A)) : exn + A := o.2.

Definition print (line : string) : M unit := emit (Print line).
Definition send_json (content : gmap string pyval) : M unit := emit (SendJson content).

(** [self.groups.append(g)] *)
Definition groups_append (g : string) : M unit :=
  c ← self; put_groups (groups c ++ [g])%list.

(** [self.groups.remove(g)] *)
Definition groups_remove (g : string) : M unit :=
  c ← self;
  match list_remove g (groups c) with
  | Some gs => put_groups gs
  | None => raise ValueError
  end.

(** [self.channel_layer.group_add(g, self.channel_name)]: the call is
    recorded when the layer carries it out. *)
Definition group_add (g : string) : M unit :=
  c ← self;
  if channel_layer c g then emit (GroupAdd g (channel_name c))
  else raise TypeError.

(** [self.channel_layer.group_discard(g, self.channel_name)] *)
Definition group_discard (g : string) : M unit :=
  c ← self;
  if channel_layer c g then emit (GroupDiscard g (channel_name c))
  else raise TypeError.

(** *** does_have_permission *)
Definition does_have_permission (db : record_store) (u : User)
    (model_label : pyval) (instance_filter : list (string * pyval))
    (check : PermissionLambda) : M pyval :=
  model ← lift (get_model db model_label);
  emit (ObjectsGet model_label instance_filter);;
  instance ← lift (objects_get db model instance_filter);
  lift (check u instance).

(** *** get_permissions *)
Definition get_permissions (reg : registry) (model_label group_key rank : pyval)
    : exn + ListenerEntry :=
  match getitem str_key reg model_label with
  | inl e => inl e
  | inr by_key =>
      match getitem str_key by_key group_key with
      | inl e => inl e
      | inr by_rank => list_getitem by_rank rank
      end
  end.

(** A channel-layer event, seen through the four keys [notify] reads;
    [None] stands for an absent key. *)
Record event : Type := {
  ev_content : option (gmap string pyval);
  ev_group_key : option pyval;
  ev_instance_pk : option pyval;
  ev_rank : option pyval
}.

(** [event[k]] and [content[k]] *)
Definition item {A} (o : option A) : M A :=
  match o with Some v => mret v | None => raise KeyError end.

(** *** SubscriptionConsumer.notify *)
Definition notify (reg : registry) (db : record_store) (ev : event) : M unit :=
  content ← item (ev_content ev);
  group_key ← item (ev_group_key ev);
  instance_pk ← item (ev_instance_pk ev);
  rank ← item (ev_rank ev);
  model_label ← item (content !! "model");
  found ← try_except
             (entry ← lift (get_permissions reg model_label group_key rank);
              mret (Some entry))
             is_KeyError
             (print "NO ENTRY -- ERROR";; mret None);
  match found with
  | None => mret tt
  | Some (_, None) =>
      print "SENDING PAYLOAD -- CHECK NONE";;
      payload ← item (ev_content ev);
      send_json payload
  | Some (_, Some check) =>
      c ← self;
      has_permission ←
        does_have_permission db (user c) model_label [("id", instance_pk)] check;
      if truthy has_permission then
        print "SENDING PAYLOAD -- CHECK PASSED";;
        payload ← item (ev_content ev);
        send_json payload
      else
        print "CHECK FAILED"
  end.

(** *** SubscriptionConsumer.receive_json *)
Definition receive_json (content : gmap string pyval) : M unit :=
  let model_label := dict_get content "model" PNone in
  if is_None model_label then print "[LIVE] No model"
  else
    let prop := dict_get content "property" PNone in
    let value := dict_get content "value" PNone in
    if is_None value then
      print ("[LIVE] No value for prop " +:+ py_str prop +:+ " found.")
    else
      let group_name := get_group_name model_label value prop in
      let unsubscribe := dict_get content "unsubscribe" (PBool false) in
      if negb (truthy unsubscribe) then
        print ("[REST-LIVE] got subscription to " +:+ group_name);;
        groups_append group_name;;
        group_add group_name
      else
        print ("[REST-LIVE] got unsubscribe for " +:+ group_name);;
        groups_remove group_name;;
        c ← self;
        if negb (list_contains group_name (groups c)) then
          group_discard group_name
        else mret tt.

End Consumer.

(** ** Auxiliary definitions used in the statements *)

(** No occurrence of the separator character in a string. *)
Fixpoint no_dash (s : string) : bool :=
  match s with
  | EmptyString => true
  | String a s' => negb (Ascii.eqb a "-") && no_dash s'
  end.

(** Two values of the same Python type. *)
Definition same_kind (v w : pyval) : Prop :=
  match v, w with
  | PNone, PNone | PBool _, PBool _ | PInt _, PInt _ | PStr _, PStr _ => True
  | _, _ => False
  end.

(** Number of copies of a group name in a group list. *)
Fixpoint copies (g : string) (l : list string) : nat :=
  match l with
  | [] => 0
  | y :: l' => ((if decide (g = y) then 1 else 0) + copies g l')%nat
  end.

(** Payloads sent to the client, fabric calls, diagnostics and record
    fetches of a trace. *)
Definition sent_payloads (t : list effect) : list (gmap string pyval) :=
  omap (λ e, match e with SendJson p => Some p | _ => None end) t.

Definition fabric_calls (t : list effect) : list effect := List.filter is_fabric_call t.
Definition diagnostics (t : list effect) : list effect := List.filter is_print t.
Definition fetches (t : list effect) : list effect := List.filter is_fetch t.

(** The (model, property, value) a client message asks for, read the way
    [receive_json] reads it. *)
Definition requested_model (content : gmap string pyval) : pyval :=
  dict_get content "model" PNone.
Definition requested_property (content : gmap string pyval) : pyval :=
  dict_get content "property" PNone.
Definition requested_value (content : gmap string pyval) : pyval :=
  dict_get content "value" PNone.
Definition requested_group (content : gmap string pyval) : string :=
  get_group_name (requested_model content) (requested_value content)
                 (requested_property content).

(** A message with a model and a value is a subscribe request when its
    [unsubscribe] entry is absent or falsy, an unsubscribe request
    otherwise. *)
Definition well_formed (content : gmap string pyval) : Prop :=
  is_None (requested_model content) = false ∧
  is_None (requested_value content) = false.

Definition wants_unsubscribe (content : gmap string pyval) : bool :=
  truthy (dict_get content "unsubscribe" (PBool false)).

(** ** Outcomes of a delivery *)

Section Delivery.

Context {User Instance Model Serializer : Type}.

Implicit Types (db : @record_store Instance Model) (c : @consumer User).

(** Outcome of the permission branch of [notify], case by case; lemma
    [notify_unfold] shows that the run of [notify] is this one. *)
Definition checked_delivery db c (model_label instance_pk : pyval)
    (content : gmap string pyval)
    (check : @PermissionLambda User Instance)
    : list effect * consumer * (exn + unit) :=
  let query := ObjectsGet model_label [("id", instance_pk)] in
  match get_model db model_label with
  | inl e => ([], c, inl e)
  | inr model =>
      match objects_get db model [("id", instance_pk)] with
      | inl e => ([query], c, inl e)
      | inr instance =>
          match check (user c) instance with
          | inl e => ([query], c, inl e)
          | inr v =>
              if truthy v then
                ([query; Print "SENDING PAYLOAD -- CHECK PASSED"; SendJson content],
                 c, inr tt)
              else ([query; Print "CHECK FAILED"], c, inr tt)
          end
      end
  end.

(** The resolved check lets the payload through: there is no check, or
    the record is fetched and the check returns a true value on the
    connection's user and that record. *)
Definition check_allows db c (model_label instance_pk : pyval)
    (check : option (@PermissionLambda User Instance)) : Prop :=
  match check with
  | None => True
  | Some f =>
      ∃ model instance v,
        get_model db model_label = inr model ∧
        objects_get db model [("id", instance_pk)] = inr instance ∧
        f (user c) instance = inr v ∧ truthy v = true
  end.

(** The evaluation of the check faults with [e]: the model or the record
    is not found, or the check itself raises. *)
Definition check_faults db c (model_label instance_pk : pyval)
    (f : @PermissionLambda User Instance) (e : exn) : Prop :=
  get_model db model_label = inl e ∨
  ∃ model, get_model db model_label = inr model ∧
    (objects_get db model [("id", instance_pk)] = inl e ∨
     ∃ instance, objects_get db model [("id", instance_pk)] = inr instance ∧
                 f (user c) instance = inl e).

End Delivery.

(** ** Sample data: an [Order] model subscribed by ["id"] *)

Definition is_owner : @PermissionLambda string string :=
  λ u owner, inr (PBool (String.eqb u owner)).

Definition sample_registry : @registry string string unit :=
  {[ "Order" := {[ "id" := [(tt, None); (tt, Some is_owner)] ]} ]}.

(** A layer that accepts the names made of ASCII letters, digits,
    hyphens, underscores and periods that are shorter than 100
    characters. *)
Definition plain_name_char (a : ascii) : bool :=
  let n := nat_of_ascii a in
  ((48 <=? n) && (n <=? 57) || (65 <=? n) && (n <=? 90)
   || (97 <=? n) && (n <=? 122) || (n =? 45) || (n =? 95) || (n =? 46))%nat.

Definition plain_names (g : string) : bool :=
  (String.length g <? 100)%nat && negb (String.eqb g "")
  && forallb plain_name_char (list_ascii_of_string g).

(** Order 42 belongs to alice, order 7 to bob; there is no other order. *)
Definition sample_store : @record_store string string :=
  {| get_model := λ label,
       match label with PStr "Order" => inr "Order" | _ => inl LookupError end;
     objects_get := λ model instance_filter,
       match instance_filter with
       | [("id", PInt 42)] => inr "alice"
       | [("id", PInt 7)] => inr "bob"
       | _ => inl DoesNotExist
       end |}.

Definition order_payload : gmap string pyval :=
  {[ "model" := PStr "Order"; "status" := PStr "shipped" ]}.

Definition order_event (content : gmap string pyval) (pk rank : Z) : event :=
  {| ev_content := Some content; ev_group_key := Some (PStr "id");
     ev_instance_pk := Some (PInt pk); ev_rank := Some (PInt rank) |}.

Definition connection_of (u : string) (gs : list string) : @consumer string :=
  {| user := u; groups := gs; channel_name := "specific.chan!1";
     channel_layer := plain_names |}.

Definition order_request : gmap string pyval :=
  {[ "model" := PStr "Order"; "property" := PStr "id"; "value" := PInt 42 ]}.

Definition order_unsubscribe : gmap string pyval :=
  <[ "unsubscribe" := PBool true ]> order_request.

Definition order_request_without_property : gmap string pyval :=
  {[ "model" := PStr "Order"; "value" := PInt 42 ]}.

(** ** The rank-free lookup and the vocabulary of the further properties *)

Section Lookup.

Context {User Instance Serializer : Type}.

(** [d.get(k, default)] on a dict whose keys are strings, for any key
    object. *)
Definition get_or {V} (d : gmap string V) (k : pyval) (default : V) : V :=
  match str_key k ≫= (d !!.) with
  | Some v => v
  | None => default
  end.

(** *** get_permission_check

    [__model_to_listeners.get(model_label, dict()).get(group_key, (None, None))[1]]:
    the second [get] yields the list of entries of the group key, or
    the pair [(None, None)]; the subscript [1] then selects [None] in
    the pair, and the entry of rank [1] in the list of entries.  The
    result is [None] or a whole entry. *)
Definition get_permission_check (reg : @registry User Instance Serializer)
    (model_label group_key : pyval) : exn + option (@ListenerEntry User Instance Serializer) :=
  let by_key := get_or reg model_label ∅ in
  match str_key group_key ≫= (by_key !!.) with
  | None => inr (snd (PNone, None))
  | Some by_rank =>
      match list_getitem by_rank (PInt 1) with
      | inl e => inl e
      | inr entry => inr (Some entry)
      end
  end.

End Lookup.

(** The fabric holds the connection's channel in exactly the groups of
    its group list. *)
Definition in_sync {User} (c : @consumer User) (f : fabric) : Prop :=
  ∀ g, g ∈ groups c ↔ (g, channel_name c) ∈ f.


(** One of the keys [notify] subscripts is missing from the event, or
    ["model"] is missing from its content. *)
Definition missing_key (ev : event) : Prop :=
  ev_content ev = None ∨ ev_group_key ev = None ∨
  ev_instance_pk ev = None ∨ ev_rank ev = None ∨
  ∃ content, ev_content ev = Some content ∧ content !! "model" = None.

(** Every run of [notify] has one of seven shapes. *)
Inductive notify_shape {User} (c : @consumer User) (ev : event)
    : list effect * @consumer User * (exn + unit) → Prop :=
  | shape_missing_key :
      missing_key ev → notify_shape c ev ([], c, inl KeyError)
  | shape_no_entry :
      notify_shape c ev ([Print "NO ENTRY -- ERROR"], c, inr tt)
  | shape_no_check content :
      ev_content ev = Some content →
      notify_shape c ev
        ([Print "SENDING PAYLOAD -- CHECK NONE"; SendJson content], c, inr tt)
  | shape_raised_early e :
      notify_shape c ev ([], c, inl e)
  | shape_fault q e :
      is_fetch q = true → notify_shape c ev ([q], c, inl e)
  | shape_passed q content :
      is_fetch q = true → ev_content ev = Some content →
      notify_shape c ev
        ([q; Print "SENDING PAYLOAD -- CHECK PASSED"; SendJson content], c, inr tt)
  | shape_failed q :
      is_fetch q = true →
      notify_shape c ev ([q; Print "CHECK FAILED"], c, inr tt).

(** ** Group addressing: rendering and separators *)

Example get_group_name_order_42 :
  get_group_name (PStr "Order") (PInt 42) (PStr "id") = "RESOURCE-Order-id-42".
Proof. reflexivity. Qed.

Lemma str_of_int_inj (n n' : Z) : str_of_int n = str_of_int n' → n = n'.
Proof.
  unfold str_of_int. intros Heq.
  assert (Hnn : ∀ z, Z.to_int z ≠ Decimal.Pos Decimal.Nil
                   ∧ Z.to_int z ≠ Decimal.Neg Decimal.Nil).
  { intros [|p|p]; simpl; split; try discriminate;
      intros [= Hp]; by apply (DecimalPos.Unsigned.to_uint_nonnil p). }
  assert (Hd : Some (Z.to_int n) = Some (Z.to_int n')).
  { rewrite <- (NilZero.isi (Z.to_int n)) by apply Hnn.
    rewrite <- (NilZero.isi (Z.to_int n')) by apply Hnn.
    by rewrite Heq. }
  injection Hd as Hd.
  rewrite <- (DecimalZ.of_to n), <- (DecimalZ.of_to n'). by rewrite Hd.
Qed.

Lemma py_str_inj_same_kind (v w : pyval) :
  same_kind v w → py_str v = py_str w → v = w.
Proof.
  destruct v as [|[]|n|s], w as [|[]|n'|s']; simpl; try done.
  - intros _ Heq. f_equal. by apply str_of_int_inj.
  - by intros _ ->.
Qed.

Lemma append_dash_split (a a' r r' : string) :
  no_dash a = true → no_dash a' = true →
  a +:+ String "-" r = a' +:+ String "-" r' → a = a' ∧ r = r'.
Proof.
  revert a'. induction a as [|x a IH]; intros [|x' a']; simpl.
  - intros _ _ [= ->]. done.
  - intros _ Hnd [= <- _]. done.
  - intros Hnd _ [= -> _]. done.
  - intros [_ Ha]%andb_prop [_ Ha']%andb_prop [= -> Heq].
    destruct (IH a' Ha Ha' Heq) as [-> ->]. done.
Qed.

Lemma append_cancel_l (a x y : string) : a +:+ x = a +:+ y → x = y.
Proof. induction a as [|c a IH]; simpl; [done|]. intros [= Heq]. by apply IH. Qed.

(** C2 (as stated, refuted): the group identifier is not injective.  A
    property name that contains the separator and a value that contains
    it yield the same identifier for two different tuples. *)
Lemma get_group_name_collision :
  ¬ (∀ m p v m' p' v' : pyval,
       get_group_name m v p = get_group_name m' v' p' →
       (m, p, v) = (m', p', v')).
Proof.
  intros Hinj.
  specialize (Hinj (PStr "Order") (PStr "id-1") (PStr "2")
                   (PStr "Order") (PStr "id") (PStr "1-2") eq_refl).
  discriminate Hinj.
Qed.

(** C2 (amended): [get_group_name] is a function of its three arguments,
    and when the rendered model label and property name of both tuples
    contain no ["-"], equal identifiers come from tuples with the same
    rendered model label, property name and value; if in addition the
    corresponding components have the same Python type, the tuples are
    equal. *)
Theorem get_group_name_injective_without_dash (m p v m' p' v' : pyval) :
  no_dash (py_str m) = true → no_dash (py_str p) = true →
  no_dash (py_str m') = true → no_dash (py_str p') = true →
  ((m, p, v) = (m', p', v') → get_group_name m v p = get_group_name m' v' p') ∧
  (get_group_name m v p = get_group_name m' v' p' →
     (py_str m = py_str m' ∧ py_str p = py_str p' ∧ py_str v = py_str v') ∧
     (same_kind m m' → same_kind p p' → same_kind v v' →
        (m, p, v) = (m', p', v'))).
Proof.
  intros Hm Hp Hm' Hp'. split; [by intros [= -> -> ->]|].
  unfold get_group_name. intros Heq.
  apply append_cancel_l in Heq.
  apply append_dash_split in Heq as [Hmm Heq]; [|done..].
  apply append_dash_split in Heq as [Hpp Hvv]; [|done..].
  split; [done|]. intros Km Kp Kv.
  by rewrite (py_str_inj_same_kind m m'), (py_str_inj_same_kind p p'),
             (py_str_inj_same_kind v v').
Qed.

Lemma get_group_name_injective_without_dash_witness :
  get_group_name (PStr "Order") (PInt 42) (PStr "id")
  ≠ get_group_name (PStr "Order") (PInt 43) (PStr "id").
Proof.
  intros Heq.
  destruct (get_group_name_injective_without_dash
              (PStr "Order") (PStr "id") (PInt 42)
              (PStr "Order") (PStr "id") (PInt 43)
              eq_refl eq_refl eq_refl eq_refl) as [_ Hinj].
  destruct (Hinj Heq) as [(_ & _ & Hv) _]. discriminate Hv.
Defined.

(** ** The handlers, case by case *)

(** Exposes the monad operations of a handler run. *)
Ltac unfold_run :=
  unfold does_have_permission, groups_remove, groups_append, group_add,
         group_discard, print, send_json, put_groups, self, emit, lift,
         raise, item, try_except, mbind, M_bind, mret, M_ret.

Section Handlers.

Context {User Instance Model Serializer : Type}.

Implicit Types (reg : @registry User Instance Serializer)
               (db : @record_store Instance Model)
               (c : @consumer User)
               (ev : event)
               (content : gmap string pyval).

Lemma notify_unfold reg db ev c content group_key instance_pk rank model_label :
  ev_content ev = Some content → ev_group_key ev = Some group_key →
  ev_instance_pk ev = Some instance_pk → ev_rank ev = Some rank →
  content !! "model" = Some model_label →
  notify reg db ev c =
    match get_permissions reg model_label group_key rank with
    | inl e =>
        if is_KeyError e then ([Print "NO ENTRY -- ERROR"], c, inr tt)
        else ([], c, inl e)
    | inr (_, None) =>
        ([Print "SENDING PAYLOAD -- CHECK NONE"; SendJson content], c, inr tt)
    | inr (_, Some check) =>
        checked_delivery db c model_label instance_pk content check
    end.
Proof.
  intros Hc Hg Hi Hr Hm. unfold notify, checked_delivery.
  rewrite Hc, Hg, Hi, Hr. unfold_run.
  cbn -[lookup get_permissions]. rewrite Hm. cbn -[get_permissions].
  destruct (get_permissions reg model_label group_key rank) as [e|[s [check|]]]; cbn.
  - by destruct e.
  - destruct (get_model db model_label) as [e|model]; cbn; [done|].
    destruct (objects_get db model _) as [e|instance]; cbn; [done|].
    destruct (check (user c) instance) as [e|v]; cbn; [done|].
    by destruct (truthy v).
  - done.
Qed.

Lemma get_permissions_unregistered reg (model_label group_key rank : pyval) :
  (∀ label key by_key,
     model_label = PStr label → group_key = PStr key →
     (reg : gmap string (gmap string (list ListenerEntry))) !! label = Some by_key →
     by_key !! key = None) →
  get_permissions reg model_label group_key rank = inl KeyError.
Proof.
  intros Hunreg. unfold get_permissions, getitem.
  destruct model_label as [| | |label]; simpl; try done.
  destruct (_ !! label) as [by_key|] eqn:Hreg; simpl; [|done].
  destruct group_key as [| | |key]; simpl; try done.
  by rewrite (Hunreg label key by_key).
Qed.

Lemma list_getitem_out_of_range {V} (l : list V) (i : Z) :
  i < - Z.of_nat (length l) ∨ Z.of_nat (length l) ≤ i →
  list_getitem l (PInt i) = inl IndexError.
Proof.
  intros Hout. unfold list_getitem. simpl.
  destruct (i <? 0) eqn:Hneg.
  - apply Z.ltb_lt in Hneg.
    destruct (0 <=? Z.of_nat (length l) + i) eqn:Hlo; simpl; [|done].
    apply Z.leb_le in Hlo. lia.
  - apply Z.ltb_ge in Hneg. rewrite (proj2 (Z.leb_le 0 i)) by done. simpl.
    destruct (i <? Z.of_nat (length l)) eqn:Hhi; [|done].
    apply Z.ltb_lt in Hhi. lia.
Qed.

Lemma receive_json_subscribe content c :
  well_formed content → wants_unsubscribe content = false →
  receive_json content c =
    (Print ("[REST-LIVE] got subscription to " +:+ requested_group content)
     :: (if channel_layer c (requested_group content)
         then [GroupAdd (requested_group content) (channel_name c)] else []),
     set_groups c (groups c ++ [requested_group content]),
     if channel_layer c (requested_group content) then inr tt else inl TypeError).
Proof.
  intros [Hm Hv] Hu. unfold receive_json.
  fold (requested_model content) (requested_value content)
       (requested_property content).
  rewrite Hm, Hv. fold (wants_unsubscribe content). rewrite Hu. cbn.
  fold (requested_group content). unfold_run. cbn.
  by destruct (channel_layer c (requested_group content)).
Qed.

Lemma receive_json_unsubscribe content c :
  well_formed content → wants_unsubscribe content = true →
  receive_json content c =
    let g := requested_group content in
    let line := Print ("[REST-LIVE] got unsubscribe for " +:+ g) in
    match list_remove g (groups c) with
    | None => ([line], c, inl ValueError)
    | Some gs =>
        if list_contains g gs then ([line], set_groups c gs, inr tt)
        else if channel_layer c g then
          ([line; GroupDiscard g (channel_name c)], set_groups c gs, inr tt)
        else ([line], set_groups c gs, inl TypeError)
    end.
Proof.
  intros [Hm Hv] Hu. unfold receive_json.
  fold (requested_model content) (requested_value content)
       (requested_property content).
  rewrite Hm, Hv. fold (wants_unsubscribe content). rewrite Hu. cbn.
  fold (requested_group content). unfold_run. cbn -[list_contains].
  destruct (list_remove (requested_group content) (groups c)) as [gs|];
    cbn -[list_contains]; [|done].
  destruct (list_contains (requested_group content) gs); cbn; [done|].
  by destruct (channel_layer c (requested_group content)).
Qed.

Lemma list_remove_None g (l : list string) : g ∉ l ↔ list_remove g l = None.
Proof.
  induction l as [|y l IH]; simpl.
  - split; [done|]. intros _. apply not_elem_of_nil.
  - rewrite not_elem_of_cons. case_decide as Hgy.
    + split; [by intros [? _]|done].
    + rewrite IH. destruct (list_remove g l); simpl.
      * split; [by intros [_ ?]|done].
      * done.
Qed.

Lemma list_remove_copies g (l gs : list string) :
  list_remove g l = Some gs → copies g l = S (copies g gs).
Proof.
  revert gs. induction l as [|y l IH]; intros gs; simpl; [done|].
  case_decide as Hgy.
  - by intros [= ->].
  - destruct (list_remove g l) as [gs'|]; simpl; [|done].
    intros [= <-]. simpl. rewrite decide_False by done. by apply IH.
Qed.

Lemma copies_elem_of g (l : list string) : g ∈ l ↔ (0 < copies g l)%nat.
Proof.
  induction l as [|y l IH]; simpl.
  - split; [by intros ?%elem_of_nil|lia].
  - rewrite elem_of_cons, IH. case_decide; [split; [lia|by left]|].
    split; [intros [?|?]; [done|lia]|by right].
Qed.

Lemma copies_app g (l1 l2 : list string) :
  copies g (l1 ++ l2) = (copies g l1 + copies g l2)%nat.
Proof. induction l1 as [|y l1 IH]; simpl; [done|]. rewrite IH. lia. Qed.

End Handlers.

(** ** Notification dispatch *)

Section Dispatch.

Context {User Instance Model Serializer : Type}.

Implicit Types (reg : @registry User Instance Serializer)
               (db : @record_store Instance Model)
               (c : @consumer User)
               (ev : event)
               (content : gmap string pyval).

(** C1: for an event that resolves to a registry entry, the payload is
    sent to the connection exactly when the entry has no check or the
    check holds of the connection's user and the fetched record;
    otherwise nothing is sent. *)
Theorem notify_forwards_iff_allowed reg db ev c content group_key instance_pk
    rank model_label serializer check :
  ev_content ev = Some content → ev_group_key ev = Some group_key →
  ev_instance_pk ev = Some instance_pk → ev_rank ev = Some rank →
  content !! "model" = Some model_label →
  get_permissions reg model_label group_key rank = inr (serializer, check) →
  (sent_payloads (trace_of (notify reg db ev c)) = [content]
     ↔ check_allows db c model_label instance_pk check) ∧
  (sent_payloads (trace_of (notify reg db ev c)) = []
     ↔ ¬ check_allows db c model_label instance_pk check).
Proof.
  intros Hc Hg Hi Hr Hm Hp.
  set (sent := sent_payloads (trace_of (notify reg db ev c))).
  set (allowed := check_allows db c model_label instance_pk check).
  assert (Hcases : (sent = [content] ∧ allowed) ∨ (sent = [] ∧ ¬ allowed)).
  { subst sent allowed.
    rewrite (notify_unfold _ _ _ _ _ _ _ _ _ Hc Hg Hi Hr Hm), Hp.
    destruct check as [f|]; cbn; [|by left].
    unfold checked_delivery.
    destruct (get_model db model_label) as [e|model] eqn:Hgm; cbn.
    { right. split; [done|]. by intros (? & ? & ? & ? & _). }
    destruct (objects_get db model _) as [e|instance] eqn:Hog; cbn.
    { right. split; [done|].
      intros (m' & i' & ? & [= <-] & Hog' & _). by rewrite Hog in Hog'. }
    destruct (f (user c) instance) as [e|v] eqn:Hf; cbn.
    { right. split; [done|].
      intros (m' & i' & ? & [= <-] & Hog' & Hf' & _).
      rewrite Hog in Hog'. injection Hog' as <-. by rewrite Hf in Hf'. }
    destruct (truthy v) eqn:Hv; cbn.
    - left. split; [done|]. by exists model, instance, v.
    - right. split; [done|].
      intros (m' & i' & v' & [= <-] & Hog' & Hf' & Hv').
      rewrite Hog in Hog'. injection Hog' as <-.
      rewrite Hf in Hf'. injection Hf' as <-. by rewrite Hv in Hv'. }
  destruct Hcases as [[-> Hal]|[-> Hal]]; split; split; done.
Qed.

(** The part of C5 that holds: when the model label or the group key of
    an event is not registered, the lookup raises [KeyError], which
    [notify] catches: it prints one diagnostic and returns, nothing is
    sent, whatever the rank is. *)
Lemma notify_unregistered_key_dropped
    (reg : gmap string (gmap string (list (@ListenerEntry User Instance Serializer))))
    db ev c content group_key instance_pk rank model_label :
  ev_content ev = Some content → ev_group_key ev = Some group_key →
  ev_instance_pk ev = Some instance_pk → ev_rank ev = Some rank →
  content !! "model" = Some model_label →
  (∀ label key by_key,
     model_label = PStr label → group_key = PStr key →
     reg !! label = Some by_key → by_key !! key = None) →
  notify reg db ev c = ([Print "NO ENTRY -- ERROR"], c, inr tt).
Proof.
  intros Hc Hg Hi Hr Hm Hunreg.
  rewrite (notify_unfold _ _ _ _ _ _ _ _ _ Hc Hg Hi Hr Hm).
  by rewrite (get_permissions_unregistered reg _ _ _ Hunreg).
Qed.

(** C5 (what the code does): when the model label and the group key of
    an event are registered and its rank is outside the list of entries,
    the subscript raises [IndexError], which [except KeyError] does not
    catch: [notify] raises it, with no diagnostic printed. *)
Theorem notify_rank_out_of_range_propagates
    (reg : gmap string (gmap string (list (@ListenerEntry User Instance Serializer))))
    db ev c content instance_pk (label key : string) (rank : Z) by_key by_rank :
  ev_content ev = Some content → ev_group_key ev = Some (PStr key) →
  ev_instance_pk ev = Some instance_pk → ev_rank ev = Some (PInt rank) →
  content !! "model" = Some (PStr label) →
  reg !! label = Some by_key → by_key !! key = Some by_rank →
  rank < - Z.of_nat (length by_rank) ∨ Z.of_nat (length by_rank) ≤ rank →
  notify reg db ev c = ([], c, inl IndexError).
Proof.
  intros Hc Hg Hi Hr Hm Hreg Hkey Hout.
  rewrite (notify_unfold _ _ _ _ _ _ _ _ _ Hc Hg Hi Hr Hm).
  unfold get_permissions, getitem. simpl. rewrite Hreg. simpl. rewrite Hkey.
  by rewrite (list_getitem_out_of_range by_rank rank Hout).
Qed.

(** C6 (what the code does): when the evaluation of a registered check
    faults, the payload is not sent, but the exception is not handled:
    it is the outcome of [notify], with no diagnostic printed. *)
Theorem notify_check_fault_propagates reg db ev c content group_key instance_pk
    rank model_label serializer f e :
  ev_content ev = Some content → ev_group_key ev = Some group_key →
  ev_instance_pk ev = Some instance_pk → ev_rank ev = Some rank →
  content !! "model" = Some model_label →
  get_permissions reg model_label group_key rank = inr (serializer, Some f) →
  check_faults db c model_label instance_pk f e →
  result_of (notify reg db ev c) = inl e ∧
  sent_payloads (trace_of (notify reg db ev c)) = [] ∧
  diagnostics (trace_of (notify reg db ev c)) = [].
Proof.
  intros Hc Hg Hi Hr Hm Hp Hfault.
  rewrite (notify_unfold _ _ _ _ _ _ _ _ _ Hc Hg Hi Hr Hm), Hp.
  unfold checked_delivery.
  destruct Hfault as [->|(model & -> & [->|(instance & -> & ->)])]; done.
Qed.

(** C9: [content["model"]] is read before the [try]; an event whose
    content has no ["model"] key makes [notify] raise [KeyError], with no
    diagnostic and no payload. *)
Theorem notify_content_without_model reg db ev c content :
  ev_content ev = Some content → content !! "model" = None →
  notify reg db ev c = ([], c, inl KeyError).
Proof.
  intros Hc Hm. unfold notify. rewrite Hc.
  destruct (ev_group_key ev), (ev_instance_pk ev), (ev_rank ev);
    unfold_run; cbn -[lookup]; by rewrite ?Hm.
Qed.

Lemma notify_missing_key_trace reg db ev c :
  ev_group_key ev = None ∨ ev_rank ev = None →
  trace_of (notify reg db ev c) = [].
Proof.
  intros Hnone. unfold notify.
  destruct (ev_content ev), (ev_group_key ev), (ev_instance_pk ev), (ev_rank ev);
    try done; by destruct Hnone.
Qed.

(** C10: every record fetch made by [notify] filters on the field name
    ["id"] with the event's instance key, whatever the group key of the
    event is; and when the entry has a check and the model is found, that
    fetch is made. *)
Theorem notify_fetches_by_id reg db ev c content instance_pk model_label :
  ev_content ev = Some content → ev_instance_pk ev = Some instance_pk →
  content !! "model" = Some model_label →
  (∀ q, q ∈ fetches (trace_of (notify reg db ev c)) →
        q = ObjectsGet model_label [("id", instance_pk)]) ∧
  (∀ group_key rank serializer f model,
     ev_group_key ev = Some group_key → ev_rank ev = Some rank →
     get_permissions reg model_label group_key rank = inr (serializer, Some f) →
     get_model db model_label = inr model →
     fetches (trace_of (notify reg db ev c))
       = [ObjectsGet model_label [("id", instance_pk)]]).
Proof.
  intros Hc Hi Hm. split.
  - destruct (ev_group_key ev) as [group_key|] eqn:Hg;
      [|rewrite notify_missing_key_trace by auto; by intros q ?%elem_of_nil].
    destruct (ev_rank ev) as [rank|] eqn:Hr;
      [|rewrite notify_missing_key_trace by auto; by intros q ?%elem_of_nil].
    rewrite (notify_unfold _ _ _ _ _ _ _ _ _ Hc Hg Hi Hr Hm).
    destruct (get_permissions reg model_label group_key rank)
      as [e|[s [f|]]]; [destruct (is_KeyError e)| |];
      try (by intros q ?%elem_of_nil).
    unfold checked_delivery.
    destruct (get_model db model_label) as [e|model];
      [by intros q ?%elem_of_nil|].
    destruct (objects_get db model _) as [e|instance];
      [by intros q ->%list_elem_of_singleton|].
    destruct (f (user c) instance) as [e|v];
      [by intros q ->%list_elem_of_singleton|].
    destruct (truthy v); by intros q ->%list_elem_of_singleton.
  - intros group_key rank s f model Hg Hr Hp Hgm.
    rewrite (notify_unfold _ _ _ _ _ _ _ _ _ Hc Hg Hi Hr Hm), Hp.
    unfold checked_delivery. rewrite Hgm.
    destruct (objects_get db model _) as [e|instance]; [done|].
    destruct (f (user c) instance) as [e|v]; [done|].
    by destruct (truthy v).
Qed.

End Dispatch.

(** ** Subscription handling *)

Section Subscriptions.

Context {User : Type}.

Implicit Types (c : @consumer User) (content : gmap string pyval).

Lemma receive_json_no_model content c :
  is_None (requested_model content) = true →
  receive_json content c = ([Print "[LIVE] No model"], c, inr tt).
Proof. intros Hm. unfold receive_json. fold (requested_model content). by rewrite Hm. Qed.

Lemma receive_json_no_value content c :
  is_None (requested_model content) = false →
  is_None (requested_value content) = true →
  receive_json content c =
    ([Print ("[LIVE] No value for prop " +:+ py_str (requested_property content)
             +:+ " found.")], c, inr tt).
Proof.
  intros Hm Hv. unfold receive_json.
  fold (requested_model content) (requested_value content)
       (requested_property content).
  by rewrite Hm, Hv.
Qed.

(** C3 (amended): two subscribe requests for the same (model, property,
    value), whose group name the channel layer accepts, both succeed,
    append the group name to the connection's group list twice and call
    [group_add] twice; in the fabric, whose groups are sets, the
    connection is a member of the group once. *)
Theorem subscribe_twice_appends_twice content1 content2 c :
  well_formed content1 → wants_unsubscribe content1 = false →
  well_formed content2 → wants_unsubscribe content2 = false →
  (requested_model content1, requested_property content1, requested_value content1)
    = (requested_model content2, requested_property content2, requested_value content2) →
  channel_layer c (requested_group content1) = true →
  let g := requested_group content1 in
  let o := (receive_json content1;; receive_json content2) c in
  result_of o = inr tt ∧
  groups (final_of o) = (groups c ++ [g; g])%list ∧
  copies g (groups (final_of o)) = (copies g (groups c) + 2)%nat ∧
  fabric_calls (trace_of o)
    = [GroupAdd g (channel_name c); GroupAdd g (channel_name c)] ∧
  ∀ f : fabric, run_fabric (trace_of o) f = {[ (g, channel_name c) ]} ∪ f.
Proof.
  intros Hw1 Hu1 Hw2 Hu2 Htuple Hok g o.
  assert (Hg : requested_group content2 = g).
  { unfold g, requested_group. by injection Htuple as -> -> ->. }
  subst o. unfold mbind, M_bind.
  rewrite (receive_json_subscribe content1 c Hw1 Hu1). fold g in Hok |- *.
  rewrite Hok.
  rewrite (receive_json_subscribe content2 _ Hw2 Hu2), Hg. cbn. rewrite Hok. cbn.
  repeat split.
  - by rewrite <- app_assoc.
  - rewrite <- app_assoc, copies_app. cbn. rewrite decide_True by done. lia.
  - intros f. cbn. by rewrite (assoc_L (∪)), (idemp_L (∪)).
Qed.

(** C4 (what the code does): an unsubscribe request for a group that is
    not in the connection's group list prints its diagnostic and then
    raises [ValueError] from [list.remove]; no fabric call is made and
    the group list is unchanged. *)
Theorem unsubscribe_non_member_raises content c :
  well_formed content → wants_unsubscribe content = true →
  requested_group content ∉ groups c →
  receive_json content c =
    ([Print ("[REST-LIVE] got unsubscribe for " +:+ requested_group content)],
     c, inl ValueError).
Proof.
  intros Hw Hu Hnot. rewrite (receive_json_unsubscribe content c Hw Hu).
  cbn zeta. apply list_remove_None in Hnot. by rewrite Hnot.
Qed.

(** C7 (what the code does): a request that has a model and a value but
    no property is not rejected; it is handled as a subscription whose
    property is [None]: the group named with the text ["None"] in place
    of the property is appended to the group list and [group_add] is
    called for it, so the connection joins that group (unless the layer
    refuses the name, and [group_add] raises). *)
Theorem subscribe_without_property_joins content c :
  well_formed content → content !! "property" = None →
  wants_unsubscribe content = false →
  let g := get_group_name (requested_model content) (requested_value content) PNone in
  receive_json content c =
    (Print ("[REST-LIVE] got subscription to " +:+ g)
     :: (if channel_layer c g then [GroupAdd g (channel_name c)] else []),
     set_groups c (groups c ++ [g]),
     if channel_layer c g then inr tt else inl TypeError).
Proof.
  intros Hw Hp Hu g. rewrite (receive_json_subscribe content c Hw Hu).
  assert (Hg : requested_group content = g); [|by rewrite Hg].
  unfold g, requested_group, requested_property, dict_get. by rewrite Hp.
Qed.

(** C8: an unsubscribe request for a group in the connection's group list
    removes one copy of the name from the list; [group_discard] is called
    exactly when no copy is left (and raises if the layer refuses the
    name), so with more than one copy there is no fabric call and the
    fabric membership stays. *)
Theorem unsubscribe_discards_on_last_copy content c :
  well_formed content → wants_unsubscribe content = true →
  let g := requested_group content in
  g ∈ groups c →
  let o := receive_json content c in
  let last := bool_decide (copies g (groups c) = 1%nat) in
  result_of o = (if last && negb (channel_layer c g) then inl TypeError else inr tt) ∧
  list_remove g (groups c) = Some (groups (final_of o)) ∧
  copies g (groups c) = S (copies g (groups (final_of o))) ∧
  fabric_calls (trace_of o)
    = (if last && channel_layer c g
       then [GroupDiscard g (channel_name c)] else []) ∧
  ((1 < copies g (groups c))%nat →
     result_of o = inr tt ∧
     g ∈ groups (final_of o) ∧
     ∀ f : fabric, (g, channel_name c) ∈ f →
                   (g, channel_name c) ∈ run_fabric (trace_of o) f).
Proof.
  intros Hw Hu g Hin o last. subst o last.
  rewrite (receive_json_unsubscribe content c Hw Hu). fold g. cbn zeta.
  destruct (list_remove g (groups c)) as [gs|] eqn:Hrm;
    [|by apply list_remove_None in Hrm].
  pose proof (list_remove_copies _ _ _ Hrm) as Hcount.
  unfold list_contains. case_bool_decide as Hleft.
  - apply copies_elem_of in Hleft.
    rewrite bool_decide_false by lia. cbn -[copies].
    split; [done|]. split; [done|]. split; [done|]. split; [done|].
    intros _. split; [done|]. split; [by apply copies_elem_of|done].
  - assert (copies g gs = 0%nat) as Hz.
    { destruct (copies g gs) eqn:E; [done|].
      exfalso. apply Hleft, copies_elem_of. lia. }
    rewrite bool_decide_true by lia.
    destruct (channel_layer c g); cbn -[copies];
      (split; [done|]); (split; [done|]); (split; [done|]);
      (split; [done|]); lia.
Qed.

End Subscriptions.

(** ** Worked instances on the sample data *)

Lemma notify_forwards_iff_allowed_witness :
  (sent_payloads (trace_of (notify sample_registry sample_store
                              (order_event order_payload 42 1)
                              (connection_of "alice" [])))
     = [order_payload]
   ↔ check_allows sample_store (connection_of "alice" []) (PStr "Order")
                  (PInt 42) (Some is_owner)) ∧
  (sent_payloads (trace_of (notify sample_registry sample_store
                              (order_event order_payload 42 1)
                              (connection_of "alice" [])))
     = []
   ↔ ¬ check_allows sample_store (connection_of "alice" []) (PStr "Order")
                    (PInt 42) (Some is_owner)).
Proof.
  apply (notify_forwards_iff_allowed sample_registry sample_store
           (order_event order_payload 42 1) (connection_of "alice" [])
           order_payload (PStr "id") (PInt 42) (PInt 1) (PStr "Order") tt
           (Some is_owner)); reflexivity.
Defined.

Lemma notify_rank_out_of_range_propagates_witness :
  notify sample_registry sample_store (order_event order_payload 42 5)
         (connection_of "alice" [])
  = ([], connection_of "alice" [], inl IndexError).
Proof.
  apply (notify_rank_out_of_range_propagates sample_registry sample_store
           (order_event order_payload 42 5) (connection_of "alice" [])
           order_payload (PInt 42) "Order" "id" 5
           {[ "id" := [(tt, None); (tt, Some is_owner)] ]}
           [(tt, None); (tt, Some is_owner)]);
    try reflexivity.
  right. simpl. lia.
Defined.

Lemma notify_check_fault_propagates_witness :
  result_of (notify sample_registry sample_store
               (order_event order_payload 99 1) (connection_of "alice" []))
    = inl DoesNotExist ∧
  sent_payloads (trace_of (notify sample_registry sample_store
                             (order_event order_payload 99 1)
                             (connection_of "alice" []))) = [] ∧
  diagnostics (trace_of (notify sample_registry sample_store
                           (order_event order_payload 99 1)
                           (connection_of "alice" []))) = [].
Proof.
  apply (notify_check_fault_propagates sample_registry sample_store
           (order_event order_payload 99 1) (connection_of "alice" [])
           order_payload (PStr "id") (PInt 99) (PInt 1) (PStr "Order") tt
           is_owner DoesNotExist); try reflexivity.
  right. exists "Order". split; [reflexivity|]. left. reflexivity.
Defined.

Lemma notify_content_without_model_witness :
  notify sample_registry sample_store
         (order_event {[ "status" := PStr "shipped" ]} 42 0)
         (connection_of "alice" [])
  = ([], connection_of "alice" [], inl KeyError).
Proof.
  apply (notify_content_without_model sample_registry sample_store
           (order_event {[ "status" := PStr "shipped" ]} 42 0)
           (connection_of "alice" []) {[ "status" := PStr "shipped" ]});
    reflexivity.
Defined.

Lemma notify_fetches_by_id_witness :
  fetches (trace_of (notify sample_registry sample_store
                       (order_event order_payload 7 1)
                       (connection_of "alice" [])))
  = [ObjectsGet (PStr "Order") [("id", PInt 7)]].
Proof.
  apply (proj2 (notify_fetches_by_id sample_registry sample_store
                  (order_event order_payload 7 1) (connection_of "alice" [])
                  order_payload (PInt 7) (PStr "Order")
                  eq_refl eq_refl eq_refl)
               (PStr "id") (PInt 1) tt is_owner "Order");
    reflexivity.
Defined.

(** C3 (as stated, refuted): after two subscribe requests for the same
    tuple the group name is in the connection's group list twice. *)
Lemma subscribe_twice_not_idempotent :
  ¬ (∀ (c : @consumer string) (content : gmap string pyval),
       well_formed content → wants_unsubscribe content = false →
       copies (requested_group content)
              (groups (final_of ((receive_json content;; receive_json content) c)))
       = 1%nat).
Proof.
  intros Hidem.
  specialize (Hidem (connection_of "alice" []) order_request
                    (conj eq_refl eq_refl) eq_refl).
  vm_compute in Hidem. discriminate Hidem.
Qed.

Lemma subscribe_twice_appends_twice_witness :
  groups (final_of ((receive_json order_request;; receive_json order_request)
                      (connection_of "alice" [])))
  = ["RESOURCE-Order-id-42"; "RESOURCE-Order-id-42"].
Proof.
  exact (proj1 (proj2 (subscribe_twice_appends_twice order_request order_request
                         (connection_of "alice" [])
                         (conj eq_refl eq_refl) eq_refl
                         (conj eq_refl eq_refl) eq_refl eq_refl eq_refl))).
Defined.

Lemma unsubscribe_non_member_raises_witness :
  receive_json order_unsubscribe (connection_of "alice" [])
  = ([Print "[REST-LIVE] got unsubscribe for RESOURCE-Order-id-42"],
     connection_of "alice" [], inl ValueError).
Proof.
  apply (unsubscribe_non_member_raises order_unsubscribe (connection_of "alice" [])
           (conj eq_refl eq_refl) eq_refl).
  apply not_elem_of_nil.
Defined.

Lemma subscribe_without_property_joins_witness :
  receive_json order_request_without_property (connection_of "alice" [])
  = ([Print "[REST-LIVE] got subscription to RESOURCE-Order-None-42";
      GroupAdd "RESOURCE-Order-None-42" "specific.chan!1"],
     connection_of "alice" ["RESOURCE-Order-None-42"], inr tt).
Proof.
  exact (subscribe_without_property_joins order_request_without_property
           (connection_of "alice" []) (conj eq_refl eq_refl) eq_refl eq_refl).
Defined.

Lemma unsubscribe_discards_on_last_copy_witness :
  fabric_calls (trace_of (receive_json order_unsubscribe
                            (connection_of "alice"
                               ["RESOURCE-Order-id-42"; "RESOURCE-Order-id-42"])))
  = [].
Proof.
  pose proof (unsubscribe_discards_on_last_copy order_unsubscribe
                (connection_of "alice"
                   ["RESOURCE-Order-id-42"; "RESOURCE-Order-id-42"])
                (conj eq_refl eq_refl) eq_refl) as Hun.
  cbn zeta in Hun.
  destruct Hun as (_ & _ & _ & Hcalls & _).
  - change (requested_group order_unsubscribe) with "RESOURCE-Order-id-42".
    apply list_elem_of_here.
  - exact Hcalls.
Defined.

(** ** Further properties of subscription handling *)

Section SubscriptionFrame.

Context {User : Type}.

Implicit Types (c : @consumer User) (content : gmap string pyval).


Lemma list_remove_Some_elem_of g (l gs : list string) :
  list_remove g l = Some gs → g ∈ l.
Proof.
  intros Hrm. destruct (decide (g ∈ l)) as [|Hn]; [done|].
  apply list_remove_None in Hn. by rewrite Hn in Hrm.
Qed.

Lemma list_remove_copies_ne g g' (l gs : list string) :
  list_remove g l = Some gs → g' ≠ g → copies g' gs = copies g' l.
Proof.
  revert gs. induction l as [|y l IH]; intros gs; simpl; [done|].
  case_decide as Hgy.
  - intros [= ->] Hne. subst y. by rewrite decide_False.
  - destruct (list_remove g l) as [gs'|]; simpl; [|done].
    intros [= <-] Hne. simpl. by rewrite (IH gs').
Qed.

Lemma list_remove_elem_of_ne g g' (l gs : list string) :
  list_remove g l = Some gs → g' ≠ g → g' ∈ gs ↔ g' ∈ l.
Proof.
  intros Hrm Hne.
  by rewrite !copies_elem_of, (list_remove_copies_ne _ _ _ _ Hrm Hne).
Qed.

Lemma list_remove_snoc g (l : list string) :
  list_remove g (l ++ [g])%list =
    Some (match list_remove g l with Some gs => (gs ++ [g])%list | None => l end).
Proof.
  induction l as [|y l IH]; simpl.
  - by rewrite decide_True.
  - case_decide; [done|]. rewrite IH. simpl.
    by destruct (list_remove g l).
Qed.

Lemma list_remove_Permutation g (l gs : list string) :
  list_remove g l = Some gs → l ≡ₚ g :: gs.
Proof.
  revert gs. induction l as [|y l IH]; intros gs; simpl; [done|].
  case_decide as Hgy.
  - by intros [= ->]; subst.
  - destruct (list_remove g l) as [gs'|]; simpl; [|done].
    intros [= <-]. rewrite (IH gs') by done. apply Permutation_swap.
Qed.

(** The four ways a message is handled. *)
Lemma receive_json_cases content c :
  (is_None (requested_model content) = true ∧
   receive_json content c = ([Print "[LIVE] No model"], c, inr tt)) ∨
  (is_None (requested_model content) = false ∧
   is_None (requested_value content) = true ∧
   receive_json content c =
     ([Print ("[LIVE] No value for prop "
              +:+ py_str (requested_property content) +:+ " found.")],
      c, inr tt)) ∨
  (well_formed content ∧ wants_unsubscribe content = false ∧
   receive_json content c =
     (Print ("[REST-LIVE] got subscription to " +:+ requested_group content)
      :: (if channel_layer c (requested_group content)
          then [GroupAdd (requested_group content) (channel_name c)] else []),
      set_groups c (groups c ++ [requested_group content]),
      if channel_layer c (requested_group content) then inr tt
      else inl TypeError)) ∨
  (well_formed content ∧ wants_unsubscribe content = true ∧
   receive_json content c =
     match list_remove (requested_group content) (groups c) with
     | None =>
         ([Print ("[REST-LIVE] got unsubscribe for " +:+ requested_group content)],
          c, inl ValueError)
     | Some gs =>
         if list_contains (requested_group content) gs then
           ([Print ("[REST-LIVE] got unsubscribe for "
                    +:+ requested_group content)],
            set_groups c gs, inr tt)
         else if channel_layer c (requested_group content) then
           ([Print ("[REST-LIVE] got unsubscribe for "
                    +:+ requested_group content);
             GroupDiscard (requested_group content) (channel_name c)],
            set_groups c gs, inr tt)
         else
           ([Print ("[REST-LIVE] got unsubscribe for "
                    +:+ requested_group content)],
            set_groups c gs, inl TypeError)
     end).
Proof.
  destruct (is_None (requested_model content)) eqn:Hm.
  { left. split; [done|]. by apply receive_json_no_model. }
  destruct (is_None (requested_value content)) eqn:Hv.
  { right; left. split; [done|]. split; [done|]. by apply receive_json_no_value. }
  destruct (wants_unsubscribe content) eqn:Hu.
  - do 3 right. split; [done|]. split; [done|].
    by rewrite (receive_json_unsubscribe content c (conj Hm Hv) Hu).
  - right; right; left. split; [done|]. split; [done|].
    by apply receive_json_subscribe.
Qed.



(** X3: a message touches the connection's own membership in its own
    group only: user and channel name are kept, nothing is sent to the
    client, no record is fetched, every fabric call is for the
    connection's channel and the requested group, and the number of
    copies of every other group name in the group list is unchanged. *)
Theorem receive_json_touches_own_group_only content c :
  let o := receive_json content c in
  let g := requested_group content in
  user (final_of o) = user c ∧
  channel_name (final_of o) = channel_name c ∧
  sent_payloads (trace_of o) = [] ∧ fetches (trace_of o) = [] ∧
  (∀ e, e ∈ fabric_calls (trace_of o) →
        e = GroupAdd g (channel_name c) ∨ e = GroupDiscard g (channel_name c)) ∧
  (∀ g', g' ≠ g → copies g' (groups (final_of o)) = copies g' (groups c)).
Proof.
  intros o g. subst o g.
  destruct (receive_json_cases content c)
    as [[Hm ->]|[(Hm & Hv & ->)|[(Hw & Hu & ->)|(Hw & Hu & ->)]]]; cbn.
  - repeat split; by intros e ?%elem_of_nil.
  - repeat split; by intros e ?%elem_of_nil.
  - destruct (channel_layer c (requested_group content)); cbn; repeat split;
      try (by intros e ?%elem_of_nil);
      try (intros e ->%list_elem_of_singleton; by left);
      intros g' Hne; rewrite copies_app; cbn; rewrite decide_False by done; lia.
  - destruct (list_remove _ (groups c)) as [gs|] eqn:Hrm; cbn.
    + destruct (list_contains _ gs); [|destruct (channel_layer c _)];
        cbn; repeat split;
        try (by intros e ?%elem_of_nil);
        try (intros e ->%list_elem_of_singleton; by right);
        intros g' Hne; by apply (list_remove_copies_ne _ _ _ _ Hrm).
    + repeat split; by intros e ?%elem_of_nil.
Qed.

End SubscriptionFrame.

Section SubscriptionInvariant.

Context {User : Type}.

Implicit Types (c : @consumer User) (content : gmap string pyval) (f : fabric).

(** X4: if the fabric holds the connection's channel in exactly the
    groups of its group list, it still does after any message that does
    not end in the layer's [TypeError], whether the message is rejected,
    handled, or ends in [ValueError].  A subscribe request for a new
    name that the layer refuses breaks this: the name is in the group
    list although the fabric has no such membership. *)
Theorem receive_json_keeps_fabric_in_sync content c f :
  in_sync c f →
  let o := receive_json content c in
  let g := requested_group content in
  (result_of o ≠ inl TypeError →
     in_sync (final_of o) (run_fabric (trace_of o) f)) ∧
  (well_formed content → wants_unsubscribe content = false →
   channel_layer c g = false → g ∉ groups c →
     result_of o = inl TypeError ∧ g ∈ groups (final_of o) ∧
     (g, channel_name (final_of o)) ∉ run_fabric (trace_of o) f).
Proof.
  intros Hsync o g. subst o g. split.
  - destruct (receive_json_cases content c)
      as [[Hm ->]|[(Hm & Hv & ->)|[(Hw & Hu & ->)|(Hw & Hu & ->)]]]; cbn;
      [done|done| |].
    + destruct (channel_layer c (requested_group content)); cbn; [|done].
      intros _ g. cbn.
      rewrite elem_of_app, list_elem_of_singleton, elem_of_union,
        elem_of_singleton, (Hsync g). split.
      * intros [Hf| ->]; [by right|by left].
      * intros [[= ->]|Hf]; [by right|by left].
    + set (g0 := requested_group content).
      destruct (list_remove g0 (groups c)) as [gs|] eqn:Hrm; cbn; [|done].
      pose proof (list_remove_Some_elem_of _ _ _ Hrm) as Hin.
      unfold list_contains. case_bool_decide as Hleft; cbn.
      * intros _ g. cbn. destruct (decide (g = g0)) as [->|Hne].
        -- split; [intros _; by apply (Hsync g0)|done].
        -- rewrite (list_remove_elem_of_ne _ _ _ _ Hrm Hne). apply Hsync.
      * destruct (channel_layer c g0); cbn; [|done].
        intros _ g. cbn. rewrite elem_of_difference, elem_of_singleton.
        destruct (decide (g = g0)) as [->|Hne].
        -- split; [done|]. by intros [_ Hn].
        -- rewrite (list_remove_elem_of_ne _ _ _ _ Hrm Hne), (Hsync g).
           split; [|by intros [? _]]. intros Hf. split; [done|]. by intros [= ?].
  - intros Hw Hu Hno Hnew.
    rewrite (receive_json_subscribe content c Hw Hu), Hno. cbn.
    split; [done|]. split.
    + apply elem_of_app. right. apply list_elem_of_here.
    + intros Hf. by apply Hnew, Hsync.
Qed.

(** X5: a subscribe request followed by an unsubscribe request for the
    same group, whose name the channel layer accepts, succeeds and
    leaves the group list a permutation of what it was.  If the group
    was not in the list, the list is restored exactly and the fabric
    sees one [group_add] followed by one [group_discard]; if it was,
    only the [group_add] is made. *)
Theorem subscribe_then_unsubscribe content1 content2 c :
  well_formed content1 → wants_unsubscribe content1 = false →
  well_formed content2 → wants_unsubscribe content2 = true →
  requested_group content1 = requested_group content2 →
  channel_layer c (requested_group content1) = true →
  let g := requested_group content1 in
  let o := (receive_json content1;; receive_json content2) c in
  result_of o = inr tt ∧
  groups (final_of o) ≡ₚ groups c ∧
  (g ∉ groups c →
     final_of o = c ∧
     fabric_calls (trace_of o)
       = [GroupAdd g (channel_name c); GroupDiscard g (channel_name c)]) ∧
  (g ∈ groups c →
     fabric_calls (trace_of o) = [GroupAdd g (channel_name c)]).
Proof.
  intros Hw1 Hu1 Hw2 Hu2 Hg Hok g o. subst o. unfold mbind, M_bind.
  rewrite (receive_json_subscribe content1 c Hw1 Hu1). fold g in Hok |- *.
  rewrite Hok.
  rewrite (receive_json_unsubscribe content2 _ Hw2 Hu2), <- Hg. fold g.
  cbn -[list_contains]. rewrite list_remove_snoc.
  destruct (list_remove g (groups c)) as [gs|] eqn:Hrm; unfold list_contains.
  - pose proof (list_remove_Some_elem_of _ _ _ Hrm) as Hin.
    rewrite bool_decide_true by (apply elem_of_app; right; apply list_elem_of_here).
    cbn. split; [done|]. split; [|split; done].
    rewrite (list_remove_Permutation _ _ _ Hrm).
    by rewrite <- Permutation_cons_append.
  - apply list_remove_None in Hrm. rewrite bool_decide_false by done.
    rewrite Hok. cbn. split; [done|]. split; [done|]. split; [|done].
    intros _. split; [|done]. by destruct c.
Qed.

End SubscriptionInvariant.


Lemma receive_json_keeps_fabric_in_sync_witness :
  in_sync (final_of (receive_json order_request (connection_of "alice" [])))
          (run_fabric (trace_of (receive_json order_request
                                   (connection_of "alice" []))) ∅).
Proof.
  assert (Hsync : in_sync (connection_of "alice" []) ∅).
  { intros g. cbn. split; [by intros ?%elem_of_nil|by intros ?%elem_of_empty]. }
  destruct (receive_json_keeps_fabric_in_sync order_request
              (connection_of "alice" []) ∅ Hsync) as [Hkept _].
  apply Hkept. discriminate.
Defined.

Lemma subscribe_then_unsubscribe_witness :
  final_of ((receive_json order_request;; receive_json order_unsubscribe)
              (connection_of "alice" ["RESOURCE-Order-status-open"]))
  = connection_of "alice" ["RESOURCE-Order-status-open"].
Proof.
  pose proof (subscribe_then_unsubscribe order_request order_unsubscribe
                (connection_of "alice" ["RESOURCE-Order-status-open"])
                (conj eq_refl eq_refl) eq_refl (conj eq_refl eq_refl)
                eq_refl eq_refl eq_refl) as Hround.
  cbn zeta in Hround. destruct Hround as (_ & _ & Hfresh & _).
  apply Hfresh.
  change (requested_group order_request) with "RESOURCE-Order-id-42".
  intros [= ]%list_elem_of_singleton.
Defined.

(** ** Further properties of notification dispatch *)

Section DispatchFrame.

Context {User Instance Model Serializer : Type}.

Implicit Types (reg : @registry User Instance Serializer)
               (db : @record_store Instance Model)
               (c : @consumer User)
               (ev : event)
               (content : gmap string pyval).

Lemma notify_missing_key reg db ev c :
  missing_key ev → notify reg db ev c = ([], c, inl KeyError).
Proof.
  intros Hmiss. unfold notify.
  destruct (ev_content ev) as [content|] eqn:Hc; [|done].
  destruct (ev_group_key ev) eqn:Hg; [|done].
  destruct (ev_instance_pk ev) eqn:Hi; [|done].
  destruct (ev_rank ev) eqn:Hr; [|done].
  unfold_run; cbn -[lookup].
  destruct Hmiss as [?|[?|[?|[?|(content' & Hc' & Hm)]]]]; try congruence.
  rewrite Hc in Hc'. injection Hc' as <-. by rewrite Hm.
Qed.

Lemma notify_has_shape reg db ev c : notify_shape c ev (notify reg db ev c).
Proof.
  destruct (ev_content ev) as [content|] eqn:Hc;
    [|rewrite notify_missing_key by (by left); constructor; by left].
  destruct (ev_group_key ev) as [group_key|] eqn:Hg;
    [|rewrite notify_missing_key by (by right; left);
      constructor; by right; left].
  destruct (ev_instance_pk ev) as [instance_pk|] eqn:Hi;
    [|rewrite notify_missing_key by (by right; right; left);
      constructor; by right; right; left].
  destruct (ev_rank ev) as [rank|] eqn:Hr;
    [|rewrite notify_missing_key by (by right; right; right; left);
      constructor; by right; right; right; left].
  destruct (content !! "model") as [model_label|] eqn:Hm;
    [|rewrite notify_missing_key by (do 4 right; by exists content);
      constructor; do 4 right; by exists content].
  rewrite (notify_unfold _ _ _ _ _ _ _ _ _ Hc Hg Hi Hr Hm).
  destruct (get_permissions reg model_label group_key rank)
    as [e|[s [f|]]] eqn:Hp.
  - destruct (is_KeyError e); [apply shape_no_entry|apply shape_raised_early].
  - unfold checked_delivery.
    destruct (get_model db model_label) as [e|model]; [apply shape_raised_early|].
    destruct (objects_get db model _) as [e|instance]; [by apply shape_fault|].
    destruct (f (user c) instance) as [e|v]; [by apply shape_fault|].
    destruct (truthy v); [by apply shape_passed|by apply shape_failed].
  - by apply shape_no_check.
Qed.

(** X6: [notify] never touches the subscription state: whatever the
    event, the registry and the record store, the connection is left as
    it was and no fabric call is made. *)
Theorem notify_leaves_subscriptions_alone reg db ev c :
  final_of (notify reg db ev c) = c ∧
  fabric_calls (trace_of (notify reg db ev c)) = [].
Proof.
  destruct (notify_has_shape reg db ev c) as [| | | |q ? Hq|q ? Hq ?|q Hq];
    try done; destruct q; done.
Qed.

(** X7: [notify] sends at most one message to the client, and what it
    sends is the content of the event as it came; the send is then the
    last thing it does and it returns normally.  In particular nothing
    is sent by a run that raises. *)
Theorem notify_sends_content_at_most_once reg db ev c :
  let o := notify reg db ev c in
  (sent_payloads (trace_of o) = [] ∨
   ∃ content, ev_content ev = Some content ∧
              sent_payloads (trace_of o) = [content] ∧
              last (trace_of o) = Some (SendJson content) ∧
              result_of o = inr tt) ∧
  (∀ e, result_of o = inl e → sent_payloads (trace_of o) = []).
Proof.
  intros o. subst o.
  destruct (notify_has_shape reg db ev c)
    as [| |content Hc| |q ? Hq|q content Hq Hc|q Hq];
    try (destruct q; try done); cbn; split; try done; try (by left);
    right; by exists content.
Qed.

(** X8: a run of [notify] that returns normally prints exactly one
    diagnostic, and that line tells whether the payload was sent; a run
    that raises prints none. *)
Theorem notify_one_diagnostic_per_return reg db ev c :
  let o := notify reg db ev c in
  match result_of o with
  | inr _ =>
      ∃ line, diagnostics (trace_of o) = [Print line] ∧
        (sent_payloads (trace_of o) ≠ [] ↔
           line = "SENDING PAYLOAD -- CHECK NONE" ∨
           line = "SENDING PAYLOAD -- CHECK PASSED")
  | inl _ => diagnostics (trace_of o) = []
  end.
Proof.
  intros o. subst o.
  destruct (notify_has_shape reg db ev c) as [| | | |q ? Hq|q ? Hq ?|q Hq];
    try (destruct q; try done); cbn; try done;
    eexists; (split; [reflexivity|]); split;
      try (by intros [?|?]); try (by intros ?); try (intros _; by left);
      try (intros _; by right).
Qed.

End DispatchFrame.

(** ** Registry lookups and the permission helper *)

Section Lookups.

Context {User Instance Model Serializer : Type}.

Implicit Types (reg : gmap string (gmap string
                        (list (@ListenerEntry User Instance Serializer))))
               (db : @record_store Instance Model)
               (c : @consumer User)
               (entry : @ListenerEntry User Instance Serializer).

(** X12: for a model label or a group key that is not registered,
    [get_permission_check] returns [None] and raises nothing, while
    [get_permissions] raises [KeyError] at every rank. *)
Theorem get_permission_check_unregistered reg (model_label group_key : pyval) :
  (∀ label key by_key,
     model_label = PStr label → group_key = PStr key →
     reg !! label = Some by_key → by_key !! key = None) →
  get_permission_check reg model_label group_key = inr None ∧
  ∀ rank, get_permissions reg model_label group_key rank = inl KeyError.
Proof.
  intros Hunreg. unfold get_permission_check, get_permissions, getitem, get_or.
  destruct model_label as [| | |label]; simpl;
    try (split; [by destruct (str_key group_key)|done]).
  destruct (reg !! label) as [by_key|] eqn:Hreg; simpl;
    [|split; [by destruct (str_key group_key)|done]].
  destruct group_key as [| | |key]; simpl; try done.
  by rewrite (Hunreg label key by_key).
Qed.

(** X13: for a registered model label and group key,
    [get_permission_check] subscripts the list of entries with 1: it
    gives what [get_permissions] gives at rank 1, the whole entry of
    rank 1, and raises [IndexError] when the list has fewer than two
    entries, even if it has an entry of rank 0. *)
Theorem get_permission_check_is_rank_one reg (label key : string) by_key by_rank :
  reg !! label = Some by_key → by_key !! key = Some by_rank →
  get_permission_check reg (PStr label) (PStr key)
    = match get_permissions reg (PStr label) (PStr key) (PInt 1) with
      | inl e => inl e
      | inr entry => inr (Some entry)
      end ∧
  get_permissions reg (PStr label) (PStr key) (PInt 1)
    = match by_rank !! 1%nat with
      | Some entry => inr entry
      | None => inl IndexError
      end.
Proof.
  intros Hreg Hkey. unfold get_permission_check, get_permissions, getitem, get_or.
  simpl. rewrite Hreg. simpl. rewrite Hkey. split; [done|].
  unfold list_getitem. cbn [int_key].
  change (1 <? 0) with false. change (0 <=? 1) with true. cbv beta iota zeta.
  change (Z.to_nat 1) with 1%nat. rewrite andb_true_l.
  destruct (1 <? Z.of_nat (length by_rank)) eqn:Hlt; [done|].
  apply Z.ltb_ge in Hlt. rewrite (proj2 (lookup_ge_None by_rank 1)); [done|lia].
Qed.

End Lookups.

Lemma get_permission_check_unregistered_witness :
  get_permission_check sample_registry (PStr "Order") (PStr "owner") = inr None ∧
  ∀ rank, get_permissions sample_registry (PStr "Order") (PStr "owner") rank
          = inl KeyError.
Proof.
  apply (get_permission_check_unregistered sample_registry
           (PStr "Order") (PStr "owner")).
  intros label key by_key [= <-] [= <-]. vm_compute. by intros [= <-].
Defined.

Lemma get_permission_check_is_rank_one_witness :
  get_permission_check sample_registry (PStr "Order") (PStr "id")
  = inr (Some (tt, Some is_owner)).
Proof.
  exact (eq_trans
           (proj1 (get_permission_check_is_rank_one sample_registry "Order" "id"
                     {[ "id" := [(tt, None); (tt, Some is_owner)] ]}
                     [(tt, None); (tt, Some is_owner)]
                     eq_refl eq_refl))
           eq_refl).
Defined.

Section FetchOnlyForChecks.

Context {User Instance Model Serializer : Type}.

Implicit Types (reg : @registry User Instance Serializer)
               (db : @record_store Instance Model)
               (c : @consumer User)
               (ev : event).

(** X14: [notify] queries the record store only for an entry that has a
    check, and only once the model is found: on a registry miss, for an
    entry without a check, or for an unknown model label no fetch is
    made. *)
Theorem notify_fetches_iff_check reg db ev c content group_key instance_pk rank
    model_label :
  ev_content ev = Some content → ev_group_key ev = Some group_key →
  ev_instance_pk ev = Some instance_pk → ev_rank ev = Some rank →
  content !! "model" = Some model_label →
  fetches (trace_of (notify reg db ev c)) ≠ [] ↔
    ∃ serializer f model,
      get_permissions reg model_label group_key rank = inr (serializer, Some f) ∧
      get_model db model_label = inr model.
Proof.
  intros Hc Hg Hi Hr Hm.
  rewrite (notify_unfold _ _ _ _ _ _ _ _ _ Hc Hg Hi Hr Hm).
  destruct (get_permissions reg model_label group_key rank)
    as [e|[s [f|]]] eqn:Hp.
  - destruct (is_KeyError e); cbn; (split; [done|]); by intros (? & ? & ? & ? & _).
  - unfold checked_delivery.
    destruct (get_model db model_label) as [e|model] eqn:Hgm; cbn.
    { split; [done|]. by intros (? & ? & ? & _ & ?). }
    split; [intros _; by exists s, f, model|intros _].
    destruct (objects_get db model _) as [e|instance]; [done|].
    destruct (f (user c) instance) as [e|v]; [done|].
    by destruct (truthy v).
  - cbn. split; [done|]. by intros (? & ? & ? & ? & _).
Qed.

End FetchOnlyForChecks.

Lemma notify_fetches_iff_check_witness :
  fetches (trace_of (notify sample_registry sample_store
                       (order_event order_payload 99 1)
                       (connection_of "bob" []))) ≠ [].
Proof.
  apply (notify_fetches_iff_check sample_registry sample_store
           (order_event order_payload 99 1) (connection_of "bob" [])
           order_payload (PStr "id") (PInt 99) (PInt 1) (PStr "Order")
           eq_refl eq_refl eq_refl eq_refl eq_refl).
  by exists tt, is_owner, "Order".
Defined.
